(** * verifyHash: on-chain signature verification (ERC-6492)

    A shallow embedding of [src/actions/public/verifyHash.ts].

    The action normalises the signature it is given, deploys the universal
    signature validator through the client's [call] capability, and reads the
    outcome: the sentinel [0x1] means valid, a [CallExecutionError] means
    invalid, every other error is thrown again.

    The file has three parts: the data model and the action itself, written
    over the interface of the modules it imports; one implementation of that
    interface, used to evaluate the action on concrete inputs; the theorems. *)

From Stdlib Require Import ZArith List String Ascii Bool Lia.
From Stdlib Require Import Strings.Byte.
Import ListNotations.

Local Open Scope string_scope.
Local Open Scope list_scope.
Local Open Scope Z_scope.

(** ** Data model *)

(** [Hex] is the template type [`0x${string}`]; [Address] likewise.  Both are
    plain strings at run time. *)
Definition Hex : Type := string.
Definition Address : Type := string.

(** [ByteArray] is a [Uint8Array]. *)
Definition ByteArray : Type := list byte.

(** [Signature]: [{ r, s, v?, yParity? }], with [v] a bigint and [yParity] a
    number. *)
Record Signature : Type := {
  sig_r : Hex;
  sig_s : Hex;
  sig_v : option Z;
  sig_yParity : option Z
}.

(** The run-time values of the union [Hex | ByteArray | Signature]. *)
Inductive SignatureValue : Type :=
| HexValue (h : string)
| ByteArrayValue (b : ByteArray)
| SignatureObject (sig : Signature).

(** Thrown values.  The action tells them apart by one test only,
    [error instanceof CallExecutionError]. *)
Inductive JsError : Type :=
| CallExecutionError (shortMessage : string)
| OtherError (name message : string).

Definition instanceof_CallExecutionError (error : JsError) : bool :=
  match error with
  | CallExecutionError _ => true
  | OtherError _ _ => false
  end.

(** A computation either returns or throws. *)
Inductive Result (A : Type) : Type :=
| Ok (a : A)
| Thrown (e : JsError).
Arguments Ok {A} a.
Arguments Thrown {A} e.

Definition BlockTag : Type := string.

(** [VerifyHashParameters]: the four fields picked from [CallParameters],
    and [address], [hash], [signature]. *)
Record VerifyHashParameters : Type := {
  address : Address;
  hash : Hex;
  signature : SignatureValue;
  blockNumber : option Z;
  blockTag : option BlockTag;
  factory : option Address;
  factoryData : option Hex
}.

(** The rest object [...callRequest] of the destructuring
    [{ address, hash, signature, ...callRequest }]. *)
Record CallRequest : Type := {
  rest_blockNumber : option Z;
  rest_blockTag : option BlockTag;
  rest_factory : option Address;
  rest_factoryData : option Hex
}.

Definition callRequest (parameters : VerifyHashParameters) : CallRequest :=
  {| rest_blockNumber := blockNumber parameters;
     rest_blockTag := blockTag parameters;
     rest_factory := factory parameters;
     rest_factoryData := factoryData parameters |}.

(** The object handed to [call]: [{ data: ..., ...callRequest }].  The other
    fields of [CallParameters] are not set by this action. *)
Record CallParameters : Type := {
  call_data : Hex;
  call_blockNumber : option Z;
  call_blockTag : option BlockTag;
  call_factory : option Address;
  call_factoryData : option Hex
}.

Definition spread (data : Hex) (rest : CallRequest) : CallParameters :=
  {| call_data := data;
     call_blockNumber := rest_blockNumber rest;
     call_blockTag := rest_blockTag rest;
     call_factory := rest_factory rest;
     call_factoryData := rest_factoryData rest |}.

(** What [call] resolves to: [{ data }], with [data] possibly [undefined]. *)
Record CallReturnType : Type := { data : option Hex }.

(** [data ?? '0x0'] *)
Definition nullish (d : option Hex) (default : Hex) : Hex :=
  match d with
  | Some h => h
  | None => default
  end.

(** ABI descriptions, as far as this action uses them: the parameter types of
    a constructor. *)
Inductive AbiType : Type := abi_address | abi_bytes32 | abi_bytes.
Record AbiItem : Type := { abi_item_type : string; abi_inputs : list AbiType }.
Definition Abi : Type := list AbiItem.

(** ** The imported modules

    None of the modules [verifyHash.ts] imports is part of the sources at
    hand.  The action is written over their interface; functions that can
    throw return a [Result]. *)
Class Imports : Type := {
  (** [constants/abis.js], [constants/contracts.js] *)
  universalSignatureValidatorAbi : Abi;
  universalSignatureValidatorByteCode : Hex;
  (** [utils/abi/encodeDeployData.js], called as
      [encodeDeployData({ abi, args, bytecode })] *)
  encodeDeployData : Abi -> list string -> Hex -> Result Hex;
  (** [utils/data/isBytesEqual.js] *)
  isBytesEqual : Hex -> Hex -> Result bool;
  (** [utils/data/isHex.js], on string values *)
  isHex : string -> bool;
  (** [utils/encoding/toHex.js]; it receives whichever value fell through the
      two tests before it, types being erased at run time *)
  bytesToHex : SignatureValue -> Result Hex;
  (** [utils/signature/serializeSignature.js] *)
  serializeSignature : Signature -> Result Hex
}.

(** ** The client and its call capability *)

Section Action.

Variable ChainState : Type.

(** Modelled from the spec: the call capability ([actions/public/call.ts] and
    the client are not under src/).  "execute(request) -> returnedBytes |
    executionFailed", or another kind of error; it runs against the chain
    state held by the node, which it may change. *)
Record Client : Type := {
  call : CallParameters -> ChainState -> ChainState * Result CallReturnType
}.

(** The state a run of the action can touch: the node behind the client, and
    the requests that have gone out to it, oldest first. *)
Record World : Type := {
  node : ChainState;
  outbound : list CallParameters
}.

(** Computations of the action: state passing, with thrown errors. *)
Definition M (A : Type) : Type := World -> World * Result A.

Definition ret {A : Type} (a : A) : M A := fun w => (w, Ok a).

Definition throw {A : Type} (e : JsError) : M A := fun w => (w, Thrown e).

Definition bind {A B : Type} (c : M A) (k : A -> M B) : M B :=
  fun w =>
    match c w with
    | (w', Ok a) => k a w'
    | (w', Thrown e) => (w', Thrown e)
    end.

(** A pure step that may throw. *)
Definition lift {A : Type} (r : Result A) : M A := fun w => (w, r).

(** [try { body } catch (error) { handler }] *)
Definition try_catch {A : Type} (body : M A) (handler : JsError -> M A) : M A :=
  fun w =>
    match body w with
    | (w', Ok a) => (w', Ok a)
    | (w', Thrown error) => handler error w'
    end.

(** Modelled from the spec: [getAction(client, call, 'call')]
    ([utils/getAction.ts] is not under src/) yields the client's call
    capability.  Invoking it sends the request to the node. *)
Definition getAction (client : Client) (request : CallParameters)
  : M CallReturnType :=
  fun w =>
    let (node', outcome) := call client request (node w) in
    ({| node := node'; outbound := outbound w ++ [request] |}, outcome).

Context {imports : Imports}.

(** ** The action *)

(** Lines 58-63: the immediately invoked function that yields
    [signatureHex], one case for each kind of run-time value.
    - A string: [isHex(signature)] decides; when it fails, [typeof signature]
      is not ['object'], and the string goes to [bytesToHex].
    - A [Uint8Array]: [isHex] is a type guard for strings ("if input is
      already a hex-encoded string") and fails; the array is an object without
      the keys [r] and [s], and goes to [bytesToHex].
    - A record: [isHex] fails as for an array; the keys [r] and [s] are
      there, and the record goes to [serializeSignature]. *)
Definition signatureHex (signature : SignatureValue) : Result Hex :=
  match signature with
  | HexValue h =>
      if isHex h then Ok h
      else bytesToHex signature
  | ByteArrayValue _ => bytesToHex signature
  | SignatureObject sig => serializeSignature sig
  end.

Local Notation "x <- c ;; k" := (bind c (fun x => k))
  (at level 61, c at next level, right associativity).

(** Lines 65-89: the [try] statement, given the normalised signature.
    Inside the [try] block the argument object is built (and the deployment
    data encoded) before the call goes out. *)
Definition tryValidate (client : Client) (parameters : VerifyHashParameters)
  (signatureHex_ : Hex) : M bool :=
  try_catch
    (data_ <- lift (encodeDeployData universalSignatureValidatorAbi
                      [address parameters; hash parameters; signatureHex_]
                      universalSignatureValidatorByteCode) ;;
     returned <- getAction client (spread data_ (callRequest parameters)) ;;
     lift (isBytesEqual (nullish (data returned) "0x0") "0x1"))
    (fun error =>
       if instanceof_CallExecutionError error then ret false
       else throw error).

(** Lines 54-89.  [signatureHex] is computed before the [try] statement is
    entered. *)
Definition verifyHash (client : Client) (parameters : VerifyHashParameters)
  : M bool :=
  signatureHex_ <- lift (signatureHex (signature parameters)) ;;
  tryValidate client parameters signatureHex_.

End Action.

Arguments call {ChainState} _ _ _.
Arguments Build_Client {ChainState} _.
Arguments node {ChainState} _.
Arguments outbound {ChainState} _.
Arguments Build_World {ChainState} _ _.
Arguments getAction {ChainState} _ _ _.
Arguments tryValidate {ChainState imports} _ _ _ _.
Arguments verifyHash {ChainState imports} _ _ _.

(** ** An implementation of the imported modules

    The utilities [verifyHash.ts] imports, written out so that the action can
    be evaluated on concrete inputs.  The theorems about the action hold for
    every implementation of [Imports]; this one provides the inputs at which
    they are instantiated, and the signature encodings themselves. *)
Module Viem.

(** *** Hexadecimal strings *)

Definition hexDigit (n : N) : ascii :=
  match n with
  | 0 => "0" | 1 => "1" | 2 => "2" | 3 => "3"
  | 4 => "4" | 5 => "5" | 6 => "6" | 7 => "7"
  | 8 => "8" | 9 => "9" | 10 => "a" | 11 => "b"
  | 12 => "c" | 13 => "d" | 14 => "e" | _ => "f"
  end%N%char.

(** The value of a digit, from its character code: [0-9], [A-F], [a-f]. *)
Definition charCodeToBase16 (c : ascii) : option N :=
  let code := N_of_ascii c in
  if (48 <=? code)%N && (code <=? 57)%N then Some (code - 48)%N
  else if (65 <=? code)%N && (code <=? 70)%N then Some (code - 55)%N
  else if (97 <=? code)%N && (code <=? 102)%N then Some (code - 87)%N
  else None.

Definition isHexDigit (c : ascii) : bool :=
  match charCodeToBase16 c with
  | Some _ => true
  | None => false
  end.

Fixpoint allHexDigits (s : string) : bool :=
  match s with
  | EmptyString => true
  | String c rest => isHexDigit c && allHexDigits rest
  end.

(** Modelled from the spec: [isHex] ([utils/data/isHex.ts] is not under
    src/).  "A hex-encoded string": the prefix [0x], then hexadecimal digits
    of either case, any number of them. *)
Definition isHex (value : string) : bool :=
  match value with
  | String "0" (String "x" digits) => allHexDigits digits
  | _ => false
  end.

(** [hex.slice(2)] *)
Definition slice2 (hex : string) : string :=
  match hex with
  | String _ (String _ digits) => digits
  | _ => EmptyString
  end.

Definition byteOfN (n : N) : byte :=
  match Byte.of_N n with
  | Some b => b
  | None => x00
  end.

(** Two digits to a byte, from the left. *)
Fixpoint pairsToBytes (digits : string) : option ByteArray :=
  match digits with
  | EmptyString => Some []
  | String hi (String lo rest) =>
      match charCodeToBase16 hi, charCodeToBase16 lo, pairsToBytes rest with
      | Some h, Some l, Some bytes => Some (byteOfN (16 * h + l) :: bytes)
      | _, _, _ => None
      end
  | String _ EmptyString => None
  end.

(** Modelled from the spec: the decoding of a hex string to the bytes it
    stands for ([utils/encoding/toBytes.ts] is not under src/).  A string of
    odd length is read with a leading zero digit, as the action's own
    sentinels ['0x0'] and ['0x1'], each a single byte, require. *)
Definition hexToBytes (hex : Hex) : option ByteArray :=
  if isHex hex then
    let digits := slice2 hex in
    if Nat.even (String.length digits) then pairsToBytes digits
    else pairsToBytes (String "0" digits)
  else None.

(** The table [hexes]: two lowercase digits for each byte. *)
Definition hexes (b : byte) : string :=
  let n := Byte.to_N b in
  String (hexDigit (n / 16)) (String (hexDigit (n mod 16)) EmptyString).

Fixpoint hexOfBytes (bytes : ByteArray) : string :=
  match bytes with
  | [] => EmptyString
  | b :: rest => (hexes b ++ hexOfBytes rest)%string
  end.

(** What the loop [string += hexes[value[i]]] appends when [value] is a
    string: a decimal digit indexes the table, any other character finds
    nothing there. *)
Definition hexesOfChar (c : ascii) : string :=
  match c with
  | "0"%char => "00" | "1"%char => "01" | "2"%char => "02"
  | "3"%char => "03" | "4"%char => "04" | "5"%char => "05"
  | "6"%char => "06" | "7"%char => "07" | "8"%char => "08"
  | "9"%char => "09"
  | _ => "undefined"
  end%string.

Fixpoint hexOfChars (s : string) : string :=
  match s with
  | EmptyString => EmptyString
  | String c rest => (hexesOfChar c ++ hexOfChars rest)%string
  end.

(** Modelled from the spec: [bytesToHex] ([utils/encoding/toHex.ts] is not
    under src/).  "Otherwise (raw byte sequence): encode to hex": the prefix
    and two lowercase digits for each byte.  The spec gives no behaviour for a
    value that is not a byte sequence; here a string is indexed character by
    character, and a record, which the action never passes, has no length
    and encodes to the bare prefix.  No case throws. *)
Definition bytesToHex (value : SignatureValue) : Result Hex :=
  match value with
  | ByteArrayValue bytes => Ok ("0x" ++ hexOfBytes bytes)%string
  | HexValue s => Ok ("0x" ++ hexOfChars s)%string
  | SignatureObject _ => Ok "0x"%string
  end.

Fixpoint bytesEqual (a b : ByteArray) : bool :=
  match a, b with
  | [], [] => true
  | x :: a', y :: b' => Byte.eqb x y && bytesEqual a' b'
  | _, _ => false
  end.

(** Modelled from the spec: [isBytesEqual] ([utils/data/isBytesEqual.ts] is
    not under src/).  "Exact byte equality" of the bytes the two hex strings
    stand for; a string that is not hex stands for no bytes and equals
    nothing. *)
Definition isBytesEqual (a b : Hex) : Result bool :=
  match hexToBytes a, hexToBytes b with
  | Some bytes_a, Some bytes_b => Ok (bytesEqual bytes_a bytes_b)
  | _, _ => Ok false
  end.

(** *** Signatures *)

Fixpoint digitsValue (acc : Z) (digits : string) : Z :=
  match digits with
  | EmptyString => acc
  | String c rest =>
      match charCodeToBase16 c with
      | Some d => digitsValue (16 * acc + Z.of_N d) rest
      | None => digitsValue (16 * acc) rest
      end
  end.

(** Modelled from the spec: [hexToBigInt] ([utils/encoding/fromHex.ts] is not
    under src/), the "256-bit scalar" a hex string denotes; a string without
    digits, or with characters that are not digits, denotes none. *)
Definition hexToBigInt (hex : Hex) : option Z :=
  if isHex hex then
    match slice2 hex with
    | EmptyString => None
    | digits => Some (digitsValue 0 digits)
    end
  else None.

(** [z.toString(16).padStart(digits, '0')], for [z] below [16 ^ digits]. *)
Fixpoint toHexPadded (digits : nat) (z : Z) : string :=
  match digits with
  | O => EmptyString
  | S d =>
      (toHexPadded d (z / 16)
         ++ String (hexDigit (Z.to_N (z mod 16))) EmptyString)%string
  end.

(** The big-endian bytes of [z], [len] of them. *)
Fixpoint numberToBytesBE (len : nat) (z : Z) : ByteArray :=
  match len with
  | O => []
  | S l => numberToBytesBE l (z / 256) ++ [byteOfN (Z.to_N (z mod 256))]
  end.

(** The order of the group of secp256k1. *)
Definition CURVE_n : Z :=
  0xFFFFFFFFFFFFFFFFFFFFFFFFFFFFFFFEBAAEDCE6AF48A03BBFD25E8CD0364141.

(** A scalar of a signature is in range when it is not zero and below the
    order of the group; it then fits 32 bytes. *)
Definition isWithinCurveOrder (z : Z) : bool := (0 <? z) && (z <? CURVE_n).

(** The recovery indicator: [yParity] when it is 0 or 1; otherwise [v], when
    it is 27, 28 or at least 35, by its parity. *)
Definition yParityOf (v yParity : option Z) : option Z :=
  match yParity with
  | Some 0 => Some 0
  | Some 1 => Some 1
  | _ =>
      match v with
      | Some v' =>
          if (v' =? 27) || (v' =? 28) || (35 <=? v')
          then Some (if v' mod 2 =? 1 then 0 else 1)
          else None
      | None => None
      end
  end.

(** Modelled from the spec: [serializeSignature]
    ([utils/signature/serializeSignature.ts] is not under src/).  "Serialize
    per the standard compact/canonical signature encoding (r || s ||
    recovery-byte, each field fixed-width, big-endian)"; "malformed signature
    input that cannot be normalized (out-of-range structured fields)" is an
    error.  The recovery byte is [1b] or [1c]. *)
Definition serializeSignature (sig : Signature) : Result Hex :=
  match yParityOf (sig_v sig) (sig_yParity sig) with
  | None => Thrown (OtherError "Error" "Invalid `v` or `yParity` value")
  | Some yParity_ =>
      match hexToBigInt (sig_r sig), hexToBigInt (sig_s sig) with
      | Some r, Some s =>
          if negb (isWithinCurveOrder r)
          then Thrown (OtherError "Error" "r must be 0 < r < CURVE.n")
          else if negb (isWithinCurveOrder s)
          then Thrown (OtherError "Error" "s must be 0 < s < CURVE.n")
          else Ok ("0x" ++ toHexPadded 64 r ++ toHexPadded 64 s
                     ++ (if Z.eqb yParity_ 0 then "1b" else "1c"))%string
      | _, _ => Thrown (OtherError "SyntaxError" "Cannot convert to a BigInt")
      end
  end.

(** *** Deployment data *)

Fixpoint zeros (n : nat) : string :=
  match n with
  | O => EmptyString
  | S m => String "0" (zeros m)
  end.

Definition padStart (width : nat) (s : string) : string :=
  (zeros (width - String.length s) ++ s)%string.

Definition padEnd (width : nat) (s : string) : string :=
  (s ++ zeros (width - String.length s))%string.

Definition toLowerChar (c : ascii) : ascii :=
  match c with
  | "A" => "a" | "B" => "b" | "C" => "c"
  | "D" => "d" | "E" => "e" | "F" => "f"
  | _ => c
  end%char.

Fixpoint toLowerCase (s : string) : string :=
  match s with
  | EmptyString => EmptyString
  | String c rest => String (toLowerChar c) (toLowerCase rest)
  end.

(** [size(hex)]: the number of bytes, a lone digit counting as one. *)
Definition size (hex : Hex) : nat :=
  Nat.div (String.length (slice2 hex) + 1) 2.

(** A prepared parameter: its digits, and whether it goes to the tail. *)
Record PreparedParam : Type := { dynamic : bool; encoded : string }.

Definition prepareParam (type : AbiType) (value : string)
  : Result PreparedParam :=
  match type with
  | abi_address =>
      if isHex value && Nat.eqb (String.length (slice2 value)) 40
      then Ok {| dynamic := false;
                 encoded := padStart 64 (toLowerCase (slice2 value)) |}
      else Thrown (OtherError "InvalidAddressError" value)
  | abi_bytes32 =>
      if Nat.eqb (size value) 32
      then Ok {| dynamic := false; encoded := padEnd 64 (slice2 value) |}
      else Thrown (OtherError "AbiEncodingBytesSizeMismatchError" value)
  | abi_bytes =>
      let words := Nat.div (size value + 31) 32 in
      Ok {| dynamic := true;
            encoded := (toHexPadded 64 (Z.of_nat (size value))
                          ++ padEnd (64 * words) (slice2 value))%string |}
  end.

Fixpoint prepareParams (types : list AbiType) (values : list string)
  : Result (list PreparedParam) :=
  match types, values with
  | [], [] => Ok []
  | t :: types', v :: values' =>
      match prepareParam t v with
      | Thrown e => Thrown e
      | Ok p =>
          match prepareParams types' values' with
          | Thrown e => Thrown e
          | Ok ps => Ok (p :: ps)
          end
      end
  | _, _ => Thrown (OtherError "AbiEncodingLengthMismatchError" "")
  end.

Definition byteLength (digits : string) : nat :=
  Nat.div (String.length digits) 2.

Definition staticSize (params : list PreparedParam) : nat :=
  fold_left
    (fun acc p => if dynamic p then (acc + 32)%nat
                  else (acc + byteLength (encoded p))%nat)
    params 0%nat.

(** Heads in order, each dynamic parameter's head being the offset of its
    tail; then the tails. *)
Fixpoint encodeParams (static : nat) (params : list PreparedParam)
  (dynamicSize : nat) : string * string :=
  match params with
  | [] => (EmptyString, EmptyString)
  | p :: rest =>
      if dynamic p then
        let (heads, tails) :=
          encodeParams static rest (dynamicSize + byteLength (encoded p)) in
        ((toHexPadded 64 (Z.of_nat (static + dynamicSize)) ++ heads)%string,
         (encoded p ++ tails)%string)
      else
        let (heads, tails) := encodeParams static rest dynamicSize in
        ((encoded p ++ heads)%string, tails)
  end.

(** Modelled from the spec: the "low-level ABI encoder"
    ([utils/abi/encodeAbiParameters.ts] is not under src/), for the three
    types the validator's constructor takes.  The checksum of a mixed-case
    address is not examined. *)
Definition encodeAbiParameters (types : list AbiType) (values : list string)
  : Result Hex :=
  match prepareParams types values with
  | Thrown e => Thrown e
  | Ok params =>
      let (heads, tails) := encodeParams (staticSize params) params 0 in
      Ok ("0x" ++ heads ++ tails)%string
  end.

Fixpoint concatDigits (values : list Hex) : string :=
  match values with
  | [] => EmptyString
  | h :: rest => (slice2 h ++ concatDigits rest)%string
  end.

(** Modelled from the spec: [concatHex] ([utils/data/concat.ts] is not under
    src/), "concatenated": one prefix, then the digits of each value in
    order. *)
Definition concatHex (values : list Hex) : Hex :=
  ("0x" ++ concatDigits values)%string.

Definition constructorInputs (abi : Abi) : option (list AbiType) :=
  match find (fun item => String.eqb (abi_item_type item) "constructor") abi
  with
  | Some item => Some (abi_inputs item)
  | None => None
  end.

(** Modelled from the spec: [encodeDeployData]
    ([utils/abi/encodeDeployData.ts] is not under src/).  "The fixed validator
    bytecode concatenated with ABI-encoded constructor arguments". *)
Definition encodeDeployData (abi : Abi) (args : list string) (bytecode : Hex)
  : Result Hex :=
  match args with
  | [] => Ok bytecode
  | _ =>
      match constructorInputs abi with
      | None => Thrown (OtherError "AbiConstructorNotFoundError" "")
      | Some [] => Thrown (OtherError "AbiConstructorParamsNotFoundError" "")
      | Some inputs =>
          match encodeAbiParameters inputs args with
          | Thrown e => Thrown e
          | Ok data_ => Ok (concatHex [bytecode; data_])
          end
      end
  end.

(** Modelled from the spec: the validator's ABI ([constants/abis.ts] is not
    under src/).  "Constructor signature (address, bytes32, bytes)". *)
Definition universalSignatureValidatorAbi : Abi :=
  [ {| abi_item_type := "constructor";
       abi_inputs := [abi_address; abi_bytes32; abi_bytes] |} ].

(** Modelled from the spec: the validator's deployment bytecode
    ([constants/contracts.ts] is not under src/), "a fixed, externally
    supplied artifact".  Its first bytes stand for the whole; no theorem
    depends on its value. *)
Definition universalSignatureValidatorByteCode : Hex :=
  "0x60806040523480156200001157600080fd5b50".

End Viem.

(** The implementation, as an instance of the interface. *)
Definition viem : Imports := {|
  universalSignatureValidatorAbi := Viem.universalSignatureValidatorAbi;
  universalSignatureValidatorByteCode :=
    Viem.universalSignatureValidatorByteCode;
  encodeDeployData := Viem.encodeDeployData;
  isBytesEqual := Viem.isBytesEqual;
  isHex := Viem.isHex;
  bytesToHex := Viem.bytesToHex;
  serializeSignature := Viem.serializeSignature
|}.

(** ** Observing a run *)

(** The deployment data the action asks for, given the normalised signature
    (lines 71-75), and the request it builds around them (lines 70-77). *)
Definition deployDataOf {imports : Imports}
  (parameters : VerifyHashParameters) (signatureHex_ : Hex) : Result Hex :=
  encodeDeployData universalSignatureValidatorAbi
    [address parameters; hash parameters; signatureHex_]
    universalSignatureValidatorByteCode.

Definition request (parameters : VerifyHashParameters) (deployData : Hex)
  : CallParameters :=
  spread deployData (callRequest parameters).

(** The requests a run of the action sent: what [outbound] holds after the
    run beyond what it held before. *)
Definition requestsOfRun {ChainState : Type} {imports : Imports}
  (client : Client ChainState) (parameters : VerifyHashParameters)
  (w : World ChainState) : list CallParameters :=
  skipn (List.length (outbound w))
        (outbound (fst (verifyHash client parameters w))).

(** What the [catch] clause makes of the outcome of the [try] block. *)
Definition caught (outcome : Result bool) : Result bool :=
  match outcome with
  | Ok valid => Ok valid
  | Thrown error =>
      if instanceof_CallExecutionError error then Ok false else Thrown error
  end.

(** The spec's reading of the returned data, over a decoding [toBytes] of hex
    strings: absent data is no bytes at all, and "bytes (defaulting to a
    single-byte zero value if empty)" are compared with the sentinel. *)
Definition returnedBytes (toBytes : Hex -> option ByteArray)
  (returned : CallReturnType) : option ByteArray :=
  match data returned with
  | None => Some []
  | Some h => toBytes h
  end.

Definition defaultIfEmpty (bytes : ByteArray) : ByteArray :=
  match bytes with
  | [] => [x00]
  | _ => bytes
  end.

(** A structured signature that [Viem.serializeSignature] accepts: a
    recovery indicator it knows, and [r] and [s] hex numbers in range. *)
Definition wellFormed (sig : Signature) : bool :=
  match Viem.yParityOf (sig_v sig) (sig_yParity sig),
        Viem.hexToBigInt (sig_r sig), Viem.hexToBigInt (sig_s sig) with
  | Some _, Some r, Some s =>
      Viem.isWithinCurveOrder r && Viem.isWithinCurveOrder s
  | _, _, _ => false
  end.

(** The 65 bytes of the signature [(r, s, yParity)]: [r || s || v], with [v]
    27 or 28. *)
Definition signatureBytes (r s yParity : Z) : ByteArray :=
  Viem.numberToBytesBE 32 r ++ Viem.numberToBytesBE 32 s
    ++ [if Z.eqb yParity 0 then x1b else x1c].

(** The canonical hex encoding of a byte sequence: the prefix [0x], then two
    lowercase digits for each byte. *)
Definition canonicalHex (bytes : ByteArray) : Hex :=
  ("0x" ++ Viem.hexOfBytes bytes)%string.

(** ** Concrete inputs *)

(** A client whose node answers every request with [outcome] and counts the
    requests it has served. *)
Definition fakeClient (outcome : Result CallReturnType) : Client nat :=
  {| call := fun _ served => (S served, outcome) |}.

Definition freshWorld : World nat := {| node := O; outbound := [] |}.

Definition exampleSignature : Hex :=
  "0x00000000000000000000000000000000000000000000000000000000000000ab00000000000000000000000000000000000000000000000000000000000000cd1b"%string.

(** The same 65 bytes, written with capital digits. *)
Definition exampleSignatureUpper : Hex :=
  "0x00000000000000000000000000000000000000000000000000000000000000AB00000000000000000000000000000000000000000000000000000000000000CD1B"%string.

Definition exampleSignatureObject : Signature :=
  {| sig_r := "0xab"; sig_s := "0xcd"; sig_v := Some 27; sig_yParity := None |}.

(** [r] is [2 ^ 256], one more than 32 bytes can hold. *)
Definition outOfRangeSignature : Signature :=
  {| sig_r := "0x10000000000000000000000000000000000000000000000000000000000000000";
     sig_s := "0xcd"; sig_v := Some 27; sig_yParity := None |}.

Definition exampleParameters (sig : SignatureValue) : VerifyHashParameters :=
  {| address := "0xa5cc3c03994db5b0d9a5eedd10cabab0813678ac";
     hash := "0x1111111111111111111111111111111111111111111111111111111111111111";
     signature := sig;
     blockNumber := Some 19000000;
     blockTag := None;
     factory := Some "0xfac";
     factoryData := Some "0xda7a" |}.

(** The deployment data for [exampleSignature] under [viem], and the request
    built around them. *)
Definition exampleDeployData : Hex :=
  Eval vm_compute in
    match deployDataOf (imports := viem)
            (exampleParameters (HexValue exampleSignature)) exampleSignature
    with
    | Ok deployData => deployData
    | Thrown _ => EmptyString
    end.

Definition exampleRequest : CallParameters :=
  request (exampleParameters (HexValue exampleSignature)) exampleDeployData.

(** The node reports that execution reverted. *)
Definition revertingClient : Client nat :=
  fakeClient (Thrown (CallExecutionError "execution reverted")).

(** The request never reaches a node. *)
Definition unreachableClient : Client nat :=
  fakeClient (Thrown (OtherError "HttpRequestError" "HTTP request failed.")).

(** The node returns [returned]. *)
Definition answeringClient (returned : option Hex) : Client nat :=
  fakeClient (Ok {| data := returned |}).

(** Parameters whose [address] is too short to be one; the encoder of the
    deployment data rejects it. *)
Definition malformedAddressParameters : VerifyHashParameters :=
  {| address := "0x123";
     hash := "0x1111111111111111111111111111111111111111111111111111111111111111";
     signature := HexValue exampleSignature;
     blockNumber := None;
     blockTag := Some "latest"%string;
     factory := None;
     factoryData := None |}.

(** The parameters of [exampleParameters], at the block tagged [latest] and
    without a factory. *)
Definition exampleParametersAtLatest (sig : SignatureValue)
  : VerifyHashParameters :=
  {| address := address (exampleParameters sig);
     hash := hash (exampleParameters sig);
     signature := sig;
     blockNumber := None;
     blockTag := Some "latest"%string;
     factory := None;
     factoryData := None |}.

(** * Properties of the action *)

Section Runs.

Context {ChainState : Type} {imports : Imports}.
Implicit Types (client : Client ChainState) (w : World ChainState).
Implicit Types (parameters : VerifyHashParameters) (error : JsError).

(** *** The three ways a run can go *)

(** Normalisation throws: the run ends there, the world as it was. *)
Lemma verifyHash_normalisation_throws client parameters w error :
  signatureHex (signature parameters) = Thrown error ->
  verifyHash client parameters w = (w, Thrown error).
Proof.
  intros Hsig. unfold verifyHash, bind, lift. rewrite Hsig. reflexivity.
Qed.

(** Encoding the deployment data throws, inside the [try] block: nothing is
    sent, and the [catch] clause decides. *)
Lemma verifyHash_encoding_throws client parameters w signatureHex_ error :
  signatureHex (signature parameters) = Ok signatureHex_ ->
  deployDataOf parameters signatureHex_ = Thrown error ->
  verifyHash client parameters w = (w, caught (Thrown error)).
Proof.
  intros Hsig Henc. unfold deployDataOf in Henc.
  unfold verifyHash, tryValidate, bind, lift, try_catch.
  rewrite Hsig, Henc. cbn.
  destruct (instanceof_CallExecutionError error); reflexivity.
Qed.

(** Otherwise one request goes out, and the outcome of the call decides. *)
Lemma verifyHash_calls client parameters w signatureHex_ deployData
      node' outcome :
  signatureHex (signature parameters) = Ok signatureHex_ ->
  deployDataOf parameters signatureHex_ = Ok deployData ->
  call client (request parameters deployData) (node w) = (node', outcome) ->
  verifyHash client parameters w =
    ({| node := node';
        outbound := outbound w ++ [request parameters deployData] |},
     caught match outcome with
            | Ok returned =>
                isBytesEqual (nullish (data returned) "0x0") "0x1"
            | Thrown error => Thrown error
            end).
Proof.
  intros Hsig Henc Hcall. unfold deployDataOf, request in *.
  unfold verifyHash, tryValidate, bind, lift, try_catch, getAction.
  rewrite Hsig, Henc, Hcall.
  destruct outcome as [returned | error]; cbn.
  - destruct (isBytesEqual _ _) as [valid | error]; cbn; [reflexivity |].
    destruct (instanceof_CallExecutionError error); reflexivity.
  - destruct (instanceof_CallExecutionError error); reflexivity.
Qed.

(** *** What a run sends *)

Lemma skipn_length_app {A : Type} (l extra : list A) :
  skipn (List.length l) (l ++ extra) = extra.
Proof.
  induction l as [| x l IH]; [reflexivity | exact IH].
Qed.

Lemma requestsOfRun_none client parameters w result :
  verifyHash client parameters w = (w, result) ->
  requestsOfRun client parameters w = [].
Proof.
  intros Hrun. unfold requestsOfRun. rewrite Hrun. cbn.
  rewrite <- (app_nil_r (outbound w)) at 2. apply skipn_length_app.
Qed.

Lemma requestsOfRun_one client parameters w signatureHex_ deployData :
  signatureHex (signature parameters) = Ok signatureHex_ ->
  deployDataOf parameters signatureHex_ = Ok deployData ->
  requestsOfRun client parameters w = [request parameters deployData].
Proof.
  intros Hsig Henc. unfold requestsOfRun.
  destruct (call client (request parameters deployData) (node w))
    as [node' outcome] eqn:Hcall.
  rewrite (verifyHash_calls _ _ _ _ _ _ _ Hsig Henc Hcall). cbn.
  apply skipn_length_app.
Qed.

(** A run sends nothing, or the one request built from the normalised
    signature. *)
Lemma requestsOfRun_cases client parameters w :
  requestsOfRun client parameters w = [] \/
  exists signatureHex_ deployData,
    signatureHex (signature parameters) = Ok signatureHex_ /\
    deployDataOf parameters signatureHex_ = Ok deployData /\
    requestsOfRun client parameters w = [request parameters deployData].
Proof.
  destruct (signatureHex (signature parameters)) as [sh | e] eqn:Hsig.
  - destruct (deployDataOf parameters sh) as [d | e] eqn:Henc.
    + right. exists sh, d. repeat split; try assumption.
      eapply requestsOfRun_one; eassumption.
    + left. eapply requestsOfRun_none.
      eapply verifyHash_encoding_throws; eassumption.
  - left. eapply requestsOfRun_none.
    eapply verifyHash_normalisation_throws; eassumption.
Qed.

(** The log only grows, by what the run sent. *)
Lemma outbound_after_run client parameters w :
  outbound (fst (verifyHash client parameters w)) =
  outbound w ++ requestsOfRun client parameters w.
Proof.
  destruct (signatureHex (signature parameters)) as [sh | e] eqn:Hsig.
  - destruct (deployDataOf parameters sh) as [d | e] eqn:Henc.
    + rewrite (requestsOfRun_one client parameters w _ _ Hsig Henc).
      destruct (call client (request parameters d) (node w))
        as [node' outcome] eqn:Hcall.
      rewrite (verifyHash_calls _ _ _ _ _ _ _ Hsig Henc Hcall). reflexivity.
    + pose proof (verifyHash_encoding_throws client _ w _ _ Hsig Henc) as Hrun.
      rewrite (requestsOfRun_none _ _ _ _ Hrun), Hrun, app_nil_r. reflexivity.
  - pose proof (verifyHash_normalisation_throws client _ w _ Hsig) as Hrun.
    rewrite (requestsOfRun_none _ _ _ _ Hrun), Hrun, app_nil_r. reflexivity.
Qed.

(** With a normalised signature the run is that of the [try] statement. *)
Lemma verifyHash_normalised client parameters w signatureHex_ :
  signatureHex (signature parameters) = Ok signatureHex_ ->
  verifyHash client parameters w = tryValidate client parameters signatureHex_ w.
Proof.
  intros Hsig. unfold verifyHash, bind, lift. rewrite Hsig. reflexivity.
Qed.

End Runs.

(** ** Reading the outcome of the call *)

(** C2.  Whenever the call capability, invoked by a run of [verifyHash],
    throws a [CallExecutionError], the run returns the boolean [false]: the
    error is not thrown on. *)
Theorem revert_returns_false {ChainState : Type} {imports : Imports}
    (client : Client ChainState) (parameters : VerifyHashParameters)
    (w : World ChainState) (req : CallParameters) (error : JsError) :
  In req (requestsOfRun client parameters w) ->
  snd (call client req (node w)) = Thrown error ->
  instanceof_CallExecutionError error = true ->
  snd (verifyHash client parameters w) = Ok false.
Proof.
  intros Hsent Hcall Hrevert.
  destruct (requestsOfRun_cases client parameters w)
    as [Hnone | (sh & d & Hsig & Henc & Hone)];
    [rewrite Hnone in Hsent; contradiction |].
  rewrite Hone in Hsent. destruct Hsent as [<- | []].
  destruct (call client (request parameters d) (node w))
    as [node' outcome] eqn:Hrun.
  cbn in Hcall. subst outcome.
  rewrite (verifyHash_calls _ _ _ _ _ _ _ Hsig Henc Hrun). cbn.
  rewrite Hrevert. reflexivity.
Qed.

(** C3.  Whenever the call capability, invoked by a run of [verifyHash],
    throws an error that is not a [CallExecutionError], the run throws that
    same error; it does not return [false]. *)
Theorem other_error_is_thrown_on {ChainState : Type} {imports : Imports}
    (client : Client ChainState) (parameters : VerifyHashParameters)
    (w : World ChainState) (req : CallParameters) (error : JsError) :
  In req (requestsOfRun client parameters w) ->
  snd (call client req (node w)) = Thrown error ->
  instanceof_CallExecutionError error = false ->
  snd (verifyHash client parameters w) = Thrown error /\
  snd (verifyHash client parameters w) <> Ok false.
Proof.
  intros Hsent Hcall Hother.
  destruct (requestsOfRun_cases client parameters w)
    as [Hnone | (sh & d & Hsig & Henc & Hone)];
    [rewrite Hnone in Hsent; contradiction |].
  rewrite Hone in Hsent. destruct Hsent as [<- | []].
  destruct (call client (request parameters d) (node w))
    as [node' outcome] eqn:Hrun.
  cbn in Hcall. subst outcome.
  rewrite (verifyHash_calls _ _ _ _ _ _ _ Hsig Henc Hrun). cbn.
  rewrite Hother. split; [reflexivity | discriminate].
Qed.

(** C1.  Let [isBytesEqual] be exact equality of the bytes two hex strings
    decode to, with ['0x0'] the single byte 00 and ['0x1'] the single byte
    01.  Whenever the call capability, invoked by a run of [verifyHash],
    returns bytes, the run returns a boolean, and it is [true] if and only if
    those bytes, a single zero byte standing in for empty or absent data,
    are the single byte 01. *)
Theorem sentinel_decides {ChainState : Type} {imports : Imports}
    (toBytes : Hex -> option ByteArray)
    (toBytes_0x0 : toBytes "0x0" = Some [x00])
    (toBytes_0x1 : toBytes "0x1" = Some [x01])
    (isBytesEqual_exact : forall a b bytes_a bytes_b,
        toBytes a = Some bytes_a -> toBytes b = Some bytes_b ->
        exists equal, isBytesEqual a b = Ok equal /\
                      (equal = true <-> bytes_a = bytes_b))
    (client : Client ChainState) (parameters : VerifyHashParameters)
    (w : World ChainState) (req : CallParameters)
    (returned : CallReturnType) (bytes : ByteArray) :
  In req (requestsOfRun client parameters w) ->
  snd (call client req (node w)) = Ok returned ->
  returnedBytes toBytes returned = Some bytes ->
  exists valid,
    snd (verifyHash client parameters w) = Ok valid /\
    (valid = true <-> defaultIfEmpty bytes = [x01]).
Proof.
  intros Hsent Hcall Hbytes.
  destruct (requestsOfRun_cases client parameters w)
    as [Hnone | (sh & d & Hsig & Henc & Hone)];
    [rewrite Hnone in Hsent; contradiction |].
  rewrite Hone in Hsent. destruct Hsent as [<- | []].
  destruct (call client (request parameters d) (node w))
    as [node' outcome] eqn:Hrun.
  cbn in Hcall. subst outcome.
  rewrite (verifyHash_calls _ _ _ _ _ _ _ Hsig Henc Hrun). cbn.
  unfold returnedBytes in Hbytes.
  destruct (data returned) as [h |]; cbn.
  - destruct (isBytesEqual_exact h "0x1"%string bytes [x01] Hbytes toBytes_0x1)
      as (equal & -> & Hequal).
    exists equal. split; [reflexivity |].
    rewrite Hequal. destruct bytes as [| b rest]; cbn; [| tauto].
    split; discriminate.
  - injection Hbytes as <-.
    destruct (isBytesEqual_exact "0x0"%string "0x1"%string [x00] [x01]
                toBytes_0x0 toBytes_0x1) as (equal & -> & Hequal).
    exists equal. split; [reflexivity |]. exact Hequal.
Qed.

(** *** The implementation at hand meets the assumptions on byte equality *)

Lemma bytesEqual_iff (a b : ByteArray) :
  Viem.bytesEqual a b = true <-> a = b.
Proof.
  revert b. induction a as [| x a IH]; intros [| y b]; cbn;
    try (split; [discriminate | discriminate]); [tauto |].
  rewrite andb_true_iff, IH. split.
  - intros [Hxy ->]. apply Byte.byte_dec_bl in Hxy. now subst.
  - intros [= -> ->]. split; [apply Byte.byte_dec_lb |]; reflexivity.
Qed.

Lemma viem_isBytesEqual_exact (a b : Hex) (bytes_a bytes_b : ByteArray) :
  Viem.hexToBytes a = Some bytes_a ->
  Viem.hexToBytes b = Some bytes_b ->
  exists equal,
    Viem.isBytesEqual a b = Ok equal /\ (equal = true <-> bytes_a = bytes_b).
Proof.
  intros Ha Hb. exists (Viem.bytesEqual bytes_a bytes_b).
  unfold Viem.isBytesEqual. rewrite Ha, Hb.
  split; [reflexivity | apply bytesEqual_iff].
Qed.

Lemma revert_returns_false_witness :
  In exampleRequest
     (requestsOfRun (imports := viem) revertingClient
        (exampleParameters (HexValue exampleSignature)) freshWorld) /\
  snd (verifyHash (imports := viem) revertingClient
         (exampleParameters (HexValue exampleSignature)) freshWorld)
  = Ok false.
Proof.
  assert (Hsent : In exampleRequest
            (requestsOfRun (imports := viem) revertingClient
               (exampleParameters (HexValue exampleSignature)) freshWorld))
    by (vm_compute; left; reflexivity).
  split; [exact Hsent |].
  apply (revert_returns_false (imports := viem) revertingClient
           (exampleParameters (HexValue exampleSignature)) freshWorld
           exampleRequest (CallExecutionError "execution reverted") Hsent);
    reflexivity.
Defined.

Lemma other_error_is_thrown_on_witness :
  snd (verifyHash (imports := viem) unreachableClient
         (exampleParameters (HexValue exampleSignature)) freshWorld)
  = Thrown (OtherError "HttpRequestError" "HTTP request failed.") /\
  snd (verifyHash (imports := viem) unreachableClient
         (exampleParameters (HexValue exampleSignature)) freshWorld)
  <> Ok false.
Proof.
  apply (other_error_is_thrown_on (imports := viem) unreachableClient
           (exampleParameters (HexValue exampleSignature)) freshWorld
           exampleRequest);
    [vm_compute; left; reflexivity | reflexivity | reflexivity].
Defined.

Lemma sentinel_decides_witness :
  exists valid,
    snd (verifyHash (imports := viem) (answeringClient (Some "0x01"%string))
           (exampleParameters (HexValue exampleSignature)) freshWorld)
    = Ok valid /\
    (valid = true <-> defaultIfEmpty [x01] = [x01]).
Proof.
  apply (sentinel_decides (imports := viem) Viem.hexToBytes
           eq_refl eq_refl viem_isBytesEqual_exact
           (answeringClient (Some "0x01"%string))
           (exampleParameters (HexValue exampleSignature)) freshWorld
           exampleRequest {| data := Some "0x01"%string |} [x01]);
    [vm_compute; left; reflexivity | reflexivity | reflexivity].
Defined.

(** ** The request that goes out *)

(** C5.  Let [encodeDeployData], for the validator's constructor, be the
    bytecode followed by the ABI encoding of the arguments.  Then every
    request a run of [verifyHash] sends carries as [data] the validator's
    bytecode followed by the ABI encoding of [(address, hash, signatureHex)],
    with [signatureHex] the normalised signature; and when normalisation and
    that encoding succeed, exactly one such request is sent. *)
Theorem data_is_deployment_payload {ChainState : Type} {imports : Imports}
    (encodeAbiParameters : list AbiType -> list string -> Result Hex)
    (encodeDeployData_concat : forall signer hash_ sig_,
        encodeDeployData universalSignatureValidatorAbi [signer; hash_; sig_]
          universalSignatureValidatorByteCode =
        match encodeAbiParameters [abi_address; abi_bytes32; abi_bytes]
                [signer; hash_; sig_] with
        | Ok encoded =>
            Ok (Viem.concatHex [universalSignatureValidatorByteCode; encoded])
        | Thrown error => Thrown error
        end)
    (client : Client ChainState) (parameters : VerifyHashParameters)
    (w : World ChainState) :
  (forall req, In req (requestsOfRun client parameters w) ->
     exists signatureHex_ encoded,
       signatureHex (signature parameters) = Ok signatureHex_ /\
       encodeAbiParameters [abi_address; abi_bytes32; abi_bytes]
         [address parameters; hash parameters; signatureHex_] = Ok encoded /\
       call_data req =
         Viem.concatHex [universalSignatureValidatorByteCode; encoded]) /\
  (forall signatureHex_ encoded,
     signatureHex (signature parameters) = Ok signatureHex_ ->
     encodeAbiParameters [abi_address; abi_bytes32; abi_bytes]
       [address parameters; hash parameters; signatureHex_] = Ok encoded ->
     exists req, requestsOfRun client parameters w = [req]).
Proof.
  split.
  - intros req Hsent.
    destruct (requestsOfRun_cases client parameters w)
      as [Hnone | (sh & d & Hsig & Henc & Hone)];
      [rewrite Hnone in Hsent; contradiction |].
    rewrite Hone in Hsent. destruct Hsent as [<- | []].
    unfold deployDataOf in Henc. rewrite encodeDeployData_concat in Henc.
    destruct (encodeAbiParameters _ _) as [encoded | error] eqn:Habi;
      [| discriminate].
    injection Henc as <-. exists sh, encoded. auto.
  - intros sh encoded Hsig Habi.
    exists (request parameters
              (Viem.concatHex [universalSignatureValidatorByteCode; encoded])).
    apply requestsOfRun_one with (signatureHex_ := sh); [exact Hsig |].
    unfold deployDataOf. rewrite encodeDeployData_concat.
    unfold Hex, Address in *. rewrite Habi. reflexivity.
Qed.

Lemma data_is_deployment_payload_witness :
  exists signatureHex_ encoded,
    signatureHex (imports := viem) (HexValue exampleSignature)
    = Ok signatureHex_ /\
    Viem.encodeAbiParameters [abi_address; abi_bytes32; abi_bytes]
      [address (exampleParameters (HexValue exampleSignature));
       hash (exampleParameters (HexValue exampleSignature));
       signatureHex_] = Ok encoded /\
    call_data exampleRequest =
      Viem.concatHex [Viem.universalSignatureValidatorByteCode; encoded].
Proof.
  apply (proj1 (data_is_deployment_payload (imports := viem)
                  Viem.encodeAbiParameters
                  (fun signer hash_ sig_ => eq_refl)
                  (answeringClient (Some "0x01"%string))
                  (exampleParameters (HexValue exampleSignature))
                  freshWorld)
               exampleRequest).
  vm_compute. left. reflexivity.
Defined.

(** C6.  Every request a run of [verifyHash] sends carries the block number,
    the block tag, the factory and the factory data exactly as the caller
    gave them, whatever they are. *)
Theorem call_request_is_forwarded {ChainState : Type} {imports : Imports}
    (client : Client ChainState) (parameters : VerifyHashParameters)
    (w : World ChainState) (req : CallParameters) :
  In req (requestsOfRun client parameters w) ->
  call_blockNumber req = blockNumber parameters /\
  call_blockTag req = blockTag parameters /\
  call_factory req = factory parameters /\
  call_factoryData req = factoryData parameters.
Proof.
  intros Hsent.
  destruct (requestsOfRun_cases client parameters w)
    as [Hnone | (sh & d & Hsig & Henc & Hone)];
    [rewrite Hnone in Hsent; contradiction |].
  rewrite Hone in Hsent. destruct Hsent as [<- | []].
  repeat split.
Qed.

Lemma call_request_is_forwarded_witness :
  In exampleRequest
     (requestsOfRun (imports := viem) (answeringClient (Some "0x01"%string))
        (exampleParameters (HexValue exampleSignature)) freshWorld) /\
  call_blockNumber exampleRequest = Some 19000000 /\
  call_blockTag exampleRequest = None /\
  call_factory exampleRequest = Some "0xfac"%string /\
  call_factoryData exampleRequest = Some "0xda7a"%string.
Proof.
  assert (Hsent : In exampleRequest
            (requestsOfRun (imports := viem)
               (answeringClient (Some "0x01"%string))
               (exampleParameters (HexValue exampleSignature)) freshWorld))
    by (vm_compute; left; reflexivity).
  split; [exact Hsent |].
  exact (call_request_is_forwarded (imports := viem)
           (answeringClient (Some "0x01"%string))
           (exampleParameters (HexValue exampleSignature)) freshWorld
           exampleRequest Hsent).
Defined.

(** ** Normalisation *)

(** C7.  When normalising the signature throws, [verifyHash] throws that
    error, whatever its class, and the world is as it was: the call
    capability has not been invoked and no request has been sent. *)
Theorem normalisation_error_precedes_call
    {ChainState : Type} {imports : Imports}
    (client : Client ChainState) (parameters : VerifyHashParameters)
    (w : World ChainState) (error : JsError) :
  signatureHex (signature parameters) = Thrown error ->
  verifyHash client parameters w = (w, Thrown error) /\
  requestsOfRun client parameters w = [].
Proof.
  intros Hsig.
  pose proof (verifyHash_normalisation_throws client parameters w error Hsig)
    as Hrun.
  split; [exact Hrun |]. eapply requestsOfRun_none. exact Hrun.
Qed.

Lemma normalisation_error_precedes_call_witness :
  signatureHex (imports := viem) (SignatureObject outOfRangeSignature)
  = Thrown (OtherError "Error" "r must be 0 < r < CURVE.n") /\
  verifyHash (imports := viem) (answeringClient (Some "0x01"%string))
    (exampleParameters (SignatureObject outOfRangeSignature)) freshWorld
  = (freshWorld, Thrown (OtherError "Error" "r must be 0 < r < CURVE.n")) /\
  requestsOfRun (imports := viem) (answeringClient (Some "0x01"%string))
    (exampleParameters (SignatureObject outOfRangeSignature)) freshWorld
  = [].
Proof.
  split; [vm_compute; reflexivity |].
  apply (normalisation_error_precedes_call (imports := viem)).
  vm_compute. reflexivity.
Defined.

(** C10.  A signature given as a hex string, one [isHex] accepts, is its own
    normalisation, whatever its length and digits: normalising it throws no
    error, and [verifyHash] goes on to the [try] statement with that very
    string. *)
Theorem hex_signature_passes_through {imports : Imports} (h : string) :
  isHex h = true ->
  signatureHex (HexValue h) = Ok h /\
  (forall error, signatureHex (HexValue h) <> Thrown error) /\
  (forall (ChainState : Type) (client : Client ChainState)
          (parameters : VerifyHashParameters) (w : World ChainState),
      signature parameters = HexValue h ->
      verifyHash client parameters w = tryValidate client parameters h w).
Proof.
  intros Hhex.
  assert (Hsig : signatureHex (HexValue h) = Ok h)
    by (cbn; rewrite Hhex; reflexivity).
  split; [exact Hsig |]. split.
  - intros error Hthrown. rewrite Hsig in Hthrown. discriminate.
  - intros ChainState client parameters w Hgiven.
    apply verifyHash_normalised. rewrite Hgiven. exact Hsig.
Qed.

Lemma hex_signature_passes_through_witness :
  Viem.isHex "0xABC" = true /\
  signatureHex (imports := viem) (HexValue "0xABC") = Ok "0xABC"%string.
Proof.
  split; [reflexivity |].
  apply (hex_signature_passes_through (imports := viem) "0xABC").
  reflexivity.
Defined.

(** ** Repeated runs *)

(** C9.  Two runs of [verifyHash] on the same parameters, from two worlds in
    which the call capability answers every request alike, end in the same
    result: the same boolean, or the same error. *)
Theorem verifyHash_deterministic {ChainState : Type} {imports : Imports}
    (client : Client ChainState) (parameters : VerifyHashParameters)
    (w1 w2 : World ChainState) :
  (forall req, snd (call client req (node w1))
               = snd (call client req (node w2))) ->
  snd (verifyHash client parameters w1) = snd (verifyHash client parameters w2).
Proof.
  intros Hsame.
  destruct (signatureHex (signature parameters)) as [sh | e] eqn:Hsig.
  - destruct (deployDataOf parameters sh) as [d | e] eqn:Henc.
    + specialize (Hsame (request parameters d)).
      destruct (call client (request parameters d) (node w1))
        as [n1 o1] eqn:Hrun1.
      destruct (call client (request parameters d) (node w2))
        as [n2 o2] eqn:Hrun2.
      cbn in Hsame. subst o2.
      rewrite (verifyHash_calls _ _ _ _ _ _ _ Hsig Henc Hrun1).
      rewrite (verifyHash_calls _ _ _ _ _ _ _ Hsig Henc Hrun2).
      reflexivity.
    + rewrite !(verifyHash_encoding_throws _ _ _ _ _ Hsig Henc). reflexivity.
  - rewrite !(verifyHash_normalisation_throws _ _ _ _ Hsig). reflexivity.
Qed.

Lemma verifyHash_deterministic_witness :
  let parameters := exampleParameters (HexValue exampleSignature) in
  let client := answeringClient (Some "0x01"%string) in
  let again := fst (verifyHash (imports := viem) client parameters freshWorld) in
  snd (verifyHash (imports := viem) client parameters freshWorld)
  = snd (verifyHash (imports := viem) client parameters again).
Proof.
  intros parameters client again.
  apply (verifyHash_deterministic (imports := viem) client parameters
           freshWorld again).
  intros req. reflexivity.
Defined.

(** ** The encodings of a signature

    These are about the implementation [viem] of the imported modules. *)

Lemma to_N_byteOfN (n : N) : (n <= 255)%N -> Byte.to_N (Viem.byteOfN n) = n.
Proof.
  intros Hn. unfold Viem.byteOfN.
  destruct (Byte.of_N n) as [b |] eqn:Hb.
  - now apply Byte.to_of_N.
  - apply Byte.of_N_None_iff in Hb. lia.
Qed.

Lemma hexOfBytes_app (a b : ByteArray) :
  Viem.hexOfBytes (a ++ b) = (Viem.hexOfBytes a ++ Viem.hexOfBytes b)%string.
Proof.
  induction a as [| x a IH]; [reflexivity |].
  cbn [Viem.hexOfBytes app]. rewrite IH. reflexivity.
Qed.

Lemma string_app_assoc (a b c : string) :
  ((a ++ b) ++ c = a ++ (b ++ c))%string.
Proof. induction a as [| x a IH]; cbn; [reflexivity | now rewrite IH]. Qed.

Lemma hexes_of_Z (z : Z) :
  Viem.hexes (Viem.byteOfN (Z.to_N (z mod 256))) =
  String (Viem.hexDigit (Z.to_N ((z / 16) mod 16)))
    (String (Viem.hexDigit (Z.to_N (z mod 16))) EmptyString).
Proof.
  unfold Viem.hexes.
  assert (Hr : 0 <= z mod 256 < 256) by (apply Z.mod_pos_bound; lia).
  rewrite to_N_byteOfN by lia.
  replace (Z.to_N (z mod 256) / 16)%N with (Z.to_N ((z / 16) mod 16)).
  2:{ apply N2Z.inj. rewrite N2Z.inj_div, !Z2N.id; try lia.
      - change 16 with (Z.of_N 16). Z.to_euclidean_division_equations. lia.
      - apply Z.mod_pos_bound. lia. }
  replace (Z.to_N (z mod 256) mod 16)%N with (Z.to_N (z mod 16)).
  2:{ apply N2Z.inj. rewrite N2Z.inj_mod, !Z2N.id; try lia.
      - Z.to_euclidean_division_equations. lia.
      - apply Z.mod_pos_bound. lia. }
  reflexivity.
Qed.

Lemma hexOfBytes_numberToBytesBE (len : nat) (z : Z) :
  Viem.hexOfBytes (Viem.numberToBytesBE len z) = Viem.toHexPadded (2 * len) z.
Proof.
  revert z. induction len as [| len IH]; intros z; [reflexivity |].
  replace (2 * S len)%nat with (S (S (2 * len))) by lia.
  cbn [Viem.numberToBytesBE Viem.toHexPadded].
  rewrite hexOfBytes_app, IH. cbn [Viem.hexOfBytes].
  rewrite hexes_of_Z, string_app_assoc. cbn [append].
  replace (z / 16 / 16) with (z / 256)
    by (rewrite Z.div_div by lia; reflexivity).
  reflexivity.
Qed.

Lemma pairsToBytes_hexes (b : byte) (rest : string) :
  Viem.pairsToBytes (Viem.hexes b ++ rest)%string =
  option_map (cons b) (Viem.pairsToBytes rest).
Proof.
  destruct b; cbn; destruct (Viem.pairsToBytes rest); reflexivity.
Qed.

Lemma pairsToBytes_hexOfBytes (bytes : ByteArray) :
  Viem.pairsToBytes (Viem.hexOfBytes bytes) = Some bytes.
Proof.
  induction bytes as [| b bytes IH]; [reflexivity |].
  cbn [Viem.hexOfBytes]. rewrite pairsToBytes_hexes, IH. reflexivity.
Qed.

Lemma allHexDigits_hexOfBytes (bytes : ByteArray) :
  Viem.allHexDigits (Viem.hexOfBytes bytes) = true.
Proof.
  induction bytes as [| b bytes IH]; [reflexivity |].
  cbn [Viem.hexOfBytes]. destruct b; cbn; exact IH.
Qed.

Lemma length_hexOfBytes (bytes : ByteArray) :
  String.length (Viem.hexOfBytes bytes) = (2 * List.length bytes)%nat.
Proof.
  induction bytes as [| b bytes IH]; [reflexivity |].
  cbn [Viem.hexOfBytes List.length]. unfold Viem.hexes. cbn [append String.length].
  rewrite IH. lia.
Qed.

Lemma isHex_bytesToHex (bytes : ByteArray) :
  Viem.isHex ("0x" ++ Viem.hexOfBytes bytes)%string = true.
Proof. cbn. apply allHexDigits_hexOfBytes. Qed.

Lemma hexToBytes_bytesToHex (bytes : ByteArray) :
  Viem.hexToBytes ("0x" ++ Viem.hexOfBytes bytes)%string = Some bytes.
Proof.
  unfold Viem.hexToBytes. rewrite isHex_bytesToHex. cbn [append Viem.slice2].
  rewrite length_hexOfBytes.
  replace (Nat.even (2 * List.length bytes)) with true.
  - apply pairsToBytes_hexOfBytes.
  - symmetry. apply Nat.even_spec. exists (List.length bytes). reflexivity.
Qed.

Lemma serializeSignature_well_formed (sig : Signature) (r s y : Z) :
  Viem.hexToBigInt (sig_r sig) = Some r ->
  Viem.hexToBigInt (sig_s sig) = Some s ->
  Viem.yParityOf (sig_v sig) (sig_yParity sig) = Some y ->
  Viem.isWithinCurveOrder r = true ->
  Viem.isWithinCurveOrder s = true ->
  Viem.serializeSignature sig =
  Ok ("0x" ++ Viem.hexOfBytes (signatureBytes r s y))%string.
Proof.
  intros Hr Hs Hy Hrange_r Hrange_s.
  unfold Viem.serializeSignature. rewrite Hy, Hr, Hs, Hrange_r, Hrange_s.
  cbn [negb]. unfold signatureBytes.
  rewrite !hexOfBytes_app, !hexOfBytes_numberToBytesBE.
  change (2 * 32)%nat with 64%nat.
  destruct (Z.eqb y 0);
    [change (Viem.hexOfBytes [x1b]) with "1b"%string
    | change (Viem.hexOfBytes [x1c]) with "1c"%string];
    reflexivity.
Qed.

Lemma serializeSignature_malformed (sig : Signature) :
  wellFormed sig = false ->
  exists error, Viem.serializeSignature sig = Thrown error.
Proof.
  unfold wellFormed, Viem.serializeSignature.
  destruct (Viem.yParityOf _ _) as [y |]; [| eauto].
  destruct (Viem.hexToBigInt (sig_r sig)) as [r |]; [| eauto].
  destruct (Viem.hexToBigInt (sig_s sig)) as [s |]; [| eauto].
  destruct (Viem.isWithinCurveOrder r); cbn; [| eauto].
  destruct (Viem.isWithinCurveOrder s); cbn; [discriminate | eauto].
Qed.

Lemma wellFormed_inv (sig : Signature) :
  wellFormed sig = true ->
  exists r s y,
    Viem.hexToBigInt (sig_r sig) = Some r /\
    Viem.hexToBigInt (sig_s sig) = Some s /\
    Viem.yParityOf (sig_v sig) (sig_yParity sig) = Some y /\
    Viem.isWithinCurveOrder r = true /\
    Viem.isWithinCurveOrder s = true.
Proof.
  unfold wellFormed.
  destruct (Viem.yParityOf _ _) as [y |]; [| discriminate].
  destruct (Viem.hexToBigInt (sig_r sig)) as [r |]; [| discriminate].
  destruct (Viem.hexToBigInt (sig_s sig)) as [s |]; [| discriminate].
  intros Hrange. apply andb_true_iff in Hrange. exists r, s, y. tauto.
Qed.

Lemma signatureHex_bytes (bytes : ByteArray) :
  signatureHex (imports := viem) (ByteArrayValue bytes)
  = Ok ("0x" ++ Viem.hexOfBytes bytes)%string.
Proof. reflexivity. Qed.





(** The canonical hex string of the signature [(0xab, 0xcd, 27)] is
    [exampleSignature]; [exampleSignatureUpper] spells the same bytes with
    capital digits. *)
Example exampleSignature_is_canonical :
  canonicalHex (signatureBytes 171 205 0) = exampleSignature /\
  Viem.hexToBytes exampleSignatureUpper = Some (signatureBytes 171 205 0).
Proof. split; vm_compute; reflexivity. Qed.

(** C8, as the code has it.  Normalisation is a function of the value alone.
    It returns a hex string as it is, and the hex encoding of a byte array;
    a string that is not hex it hands to [bytesToHex].  A structured record
    it serialises to a hex string when the record is well formed, and throws
    when it is not. *)
Theorem normalisation_throws_only_on_malformed_records
    (value : SignatureValue) :
  match value with
  | HexValue h =>
      if Viem.isHex h
      then signatureHex (imports := viem) value = Ok h
      else signatureHex (imports := viem) value = Viem.bytesToHex value
  | ByteArrayValue bytes =>
      exists out, signatureHex (imports := viem) value = Ok out /\
                  Viem.hexToBytes out = Some bytes
  | SignatureObject sig =>
      if wellFormed sig
      then exists out, signatureHex (imports := viem) value = Ok out /\
                       Viem.isHex out = true
      else exists error, signatureHex (imports := viem) value = Thrown error
  end.
Proof.
  destruct value as [h | bytes | sig].
  - cbn. destruct (Viem.isHex h); reflexivity.
  - exists ("0x" ++ Viem.hexOfBytes bytes)%string.
    split; [apply signatureHex_bytes | apply hexToBytes_bytesToHex].
  - destruct (wellFormed sig) eqn:Hwf.
    + destruct (wellFormed_inv sig Hwf)
        as (r & s & y & Hr & Hs & Hy & Hrange_r & Hrange_s).
      exists ("0x" ++ Viem.hexOfBytes (signatureBytes r s y))%string.
      split; [| apply isHex_bytesToHex].
      exact (serializeSignature_well_formed sig r s y
               Hr Hs Hy Hrange_r Hrange_s).
    + exact (serializeSignature_malformed sig Hwf).
Qed.

(** C8, as stated, fails.  A structured record whose [v] is 5, with no
    [yParity], is a value of the declared union; normalising it throws. *)
Lemma normalisation_throws_on_unknown_v :
  signatureHex (imports := viem)
    (SignatureObject {| sig_r := "0xab"; sig_s := "0xcd";
                        sig_v := Some 5; sig_yParity := None |})
  = Thrown (OtherError "Error" "Invalid `v` or `yParity` value").
Proof. reflexivity. Qed.

(** ** The scenarios of the specification, evaluated *)

(** The executor returns [0x01]: valid. *)
Example scenario_valid :
  snd (verifyHash (imports := viem) (answeringClient (Some "0x01"%string))
         (exampleParameters (HexValue exampleSignature)) freshWorld)
  = Ok true.
Proof. vm_compute. reflexivity. Qed.

(** The executor returns [0x00]: invalid. *)
Example scenario_zero :
  snd (verifyHash (imports := viem) (answeringClient (Some "0x00"%string))
         (exampleParameters (HexValue exampleSignature)) freshWorld)
  = Ok false.
Proof. vm_compute. reflexivity. Qed.

(** The executor returns no data: invalid, not an error. *)
Example scenario_no_data :
  snd (verifyHash (imports := viem) (answeringClient None)
         (exampleParameters (HexValue exampleSignature)) freshWorld)
  = Ok false.
Proof. vm_compute. reflexivity. Qed.

(** The executor returns two bytes, [00 01]: not the sentinel. *)
Example scenario_two_bytes :
  snd (verifyHash (imports := viem) (answeringClient (Some "0x0001"%string))
         (exampleParameters (HexValue exampleSignature)) freshWorld)
  = Ok false.
Proof. vm_compute. reflexivity. Qed.

(** The three representations of [exampleSignature] lead to the same
    request. *)
Example scenario_same_request :
  requestsOfRun (imports := viem) revertingClient
    (exampleParameters (ByteArrayValue (signatureBytes 171 205 0))) freshWorld
  = [exampleRequest] /\
  requestsOfRun (imports := viem) revertingClient
    (exampleParameters (SignatureObject exampleSignatureObject)) freshWorld
  = [exampleRequest].
Proof. split; vm_compute; reflexivity. Qed.

(** * Further properties of a run *)

(** ** Requests *)

(** The requests of a run, read off the parameters. *)
Lemma requestsOfRun_built {ChainState : Type} {imports : Imports}
    (client : Client ChainState) (parameters : VerifyHashParameters)
    (w : World ChainState) :
  requestsOfRun client parameters w =
  match signatureHex (signature parameters) with
  | Ok signatureHex_ =>
      match deployDataOf parameters signatureHex_ with
      | Ok deployData => [request parameters deployData]
      | Thrown _ => []
      end
  | Thrown _ => []
  end.
Proof.
  destruct (signatureHex (signature parameters)) as [sh | e] eqn:Hsig.
  - destruct (deployDataOf parameters sh) as [d | e] eqn:Henc.
    + exact (requestsOfRun_one client parameters w sh d Hsig Henc).
    + exact (requestsOfRun_none client parameters w _
               (verifyHash_encoding_throws client _ w _ _ Hsig Henc)).
  - exact (requestsOfRun_none client parameters w _
             (verifyHash_normalisation_throws client _ w _ Hsig)).
Qed.

(** X1.  A run of [verifyHash] invokes the call capability at most once, and
    keeps the requests sent before it: the log after the run is the log
    before it followed by the requests of the run. *)
Theorem at_most_one_request {ChainState : Type} {imports : Imports}
    (client : Client ChainState) (parameters : VerifyHashParameters)
    (w : World ChainState) :
  (List.length (requestsOfRun client parameters w) <= 1)%nat /\
  outbound (fst (verifyHash client parameters w)) =
  outbound w ++ requestsOfRun client parameters w.
Proof.
  split; [| apply outbound_after_run].
  destruct (requestsOfRun_cases client parameters w)
    as [-> | (sh & d & _ & _ & ->)]; cbn; lia.
Qed.

(** X2.  A request goes out exactly when normalising the signature and
    encoding the deployment data both succeed. *)
Theorem request_sent_iff_encoded {ChainState : Type} {imports : Imports}
    (client : Client ChainState) (parameters : VerifyHashParameters)
    (w : World ChainState) :
  requestsOfRun client parameters w <> [] <->
  exists signatureHex_ deployData,
    signatureHex (signature parameters) = Ok signatureHex_ /\
    deployDataOf parameters signatureHex_ = Ok deployData.
Proof.
  split.
  - intros Hsent.
    destruct (requestsOfRun_cases client parameters w)
      as [Hnone | (sh & d & Hsig & Henc & _)]; [contradiction | eauto].
  - intros (sh & d & Hsig & Henc).
    rewrite (requestsOfRun_one client parameters w sh d Hsig Henc).
    discriminate.
Qed.

(** X3.  The requests of a run do not depend on the client or on the world
    the run starts from: they are built from the parameters alone. *)
Theorem requests_depend_on_parameters_only
    {ChainState1 ChainState2 : Type} {imports : Imports}
    (client1 : Client ChainState1) (client2 : Client ChainState2)
    (parameters : VerifyHashParameters)
    (w1 : World ChainState1) (w2 : World ChainState2) :
  requestsOfRun client1 parameters w1 = requestsOfRun client2 parameters w2.
Proof.
  destruct (signatureHex (signature parameters)) as [sh | e] eqn:Hsig.
  - destruct (deployDataOf parameters sh) as [d | e] eqn:Henc.
    + rewrite (requestsOfRun_one client1 parameters w1 sh d Hsig Henc).
      rewrite (requestsOfRun_one client2 parameters w2 sh d Hsig Henc).
      reflexivity.
    + rewrite (requestsOfRun_none client1 parameters w1 _
                 (verifyHash_encoding_throws client1 _ w1 _ _ Hsig Henc)).
      rewrite (requestsOfRun_none client2 parameters w2 _
                 (verifyHash_encoding_throws client2 _ w2 _ _ Hsig Henc)).
      reflexivity.
  - rewrite (requestsOfRun_none client1 parameters w1 _
               (verifyHash_normalisation_throws client1 _ w1 _ Hsig)).
    rewrite (requestsOfRun_none client2 parameters w2 _
               (verifyHash_normalisation_throws client2 _ w2 _ Hsig)).
    reflexivity.
Qed.

(** X4.  The [data] of the request depends on [address], [hash] and
    [signature] only: two runs whose parameters agree on these three send the
    same [data], whatever block selector and factory fields each carries. *)
Theorem data_ignores_call_request {ChainState : Type} {imports : Imports}
    (client : Client ChainState)
    (parameters1 parameters2 : VerifyHashParameters)
    (w : World ChainState) :
  address parameters1 = address parameters2 ->
  hash parameters1 = hash parameters2 ->
  signature parameters1 = signature parameters2 ->
  map call_data (requestsOfRun client parameters1 w) =
  map call_data (requestsOfRun client parameters2 w).
Proof.
  intros Haddress Hhash Hsignature.
  destruct (signatureHex (signature parameters1)) as [sh | e] eqn:Hsig1.
  - assert (Hsig2 : signatureHex (signature parameters2) = Ok sh)
      by (rewrite <- Hsignature; exact Hsig1).
    assert (Hsame : deployDataOf parameters1 sh = deployDataOf parameters2 sh)
      by (unfold deployDataOf; rewrite Haddress, Hhash; reflexivity).
    destruct (deployDataOf parameters1 sh) as [d | e] eqn:Henc1.
    + rewrite (requestsOfRun_one client parameters1 w sh d Hsig1 Henc1).
      rewrite (requestsOfRun_one client parameters2 w sh d Hsig2
                 (eq_sym Hsame)).
      reflexivity.
    + rewrite (requestsOfRun_none client parameters1 w _
                 (verifyHash_encoding_throws client _ w _ _ Hsig1 Henc1)).
      rewrite (requestsOfRun_none client parameters2 w _
                 (verifyHash_encoding_throws client _ w _ _ Hsig2
                    (eq_sym Hsame))).
      reflexivity.
  - assert (Hsig2 : signatureHex (signature parameters2) = Thrown e)
      by (rewrite <- Hsignature; exact Hsig1).
    rewrite (requestsOfRun_none client parameters1 w _
               (verifyHash_normalisation_throws client _ w _ Hsig1)).
    rewrite (requestsOfRun_none client parameters2 w _
               (verifyHash_normalisation_throws client _ w _ Hsig2)).
    reflexivity.
Qed.

Lemma data_ignores_call_request_witness :
  map call_data
    (requestsOfRun (imports := viem) revertingClient
       (exampleParameters (HexValue exampleSignature)) freshWorld) =
  map call_data
    (requestsOfRun (imports := viem) revertingClient
       (exampleParametersAtLatest (HexValue exampleSignature)) freshWorld).
Proof.
  apply (data_ignores_call_request (imports := viem) revertingClient
           (exampleParameters (HexValue exampleSignature))
           (exampleParametersAtLatest (HexValue exampleSignature))
           freshWorld);
    reflexivity.
Defined.

(** X5.  The node is touched by the one call and by nothing else: after a
    run that sent no request its state is what it was, and after a run that
    sent a request it is the state that call left. *)
Theorem node_changes_by_the_call_only {ChainState : Type} {imports : Imports}
    (client : Client ChainState) (parameters : VerifyHashParameters)
    (w : World ChainState) :
  node (fst (verifyHash client parameters w)) =
  match requestsOfRun client parameters w with
  | [] => node w
  | req :: _ => fst (call client req (node w))
  end.
Proof.
  destruct (signatureHex (signature parameters)) as [sh | e] eqn:Hsig.
  - destruct (deployDataOf parameters sh) as [d | e] eqn:Henc.
    + rewrite (requestsOfRun_one client parameters w sh d Hsig Henc).
      destruct (call client (request parameters d) (node w))
        as [node' outcome] eqn:Hcall.
      rewrite (verifyHash_calls _ _ _ _ _ _ _ Hsig Henc Hcall). reflexivity.
    + pose proof (verifyHash_encoding_throws client _ w _ _ Hsig Henc) as Hrun.
      rewrite (requestsOfRun_none _ _ _ _ Hrun), Hrun. reflexivity.
  - pose proof (verifyHash_normalisation_throws client _ w _ Hsig) as Hrun.
    rewrite (requestsOfRun_none _ _ _ _ Hrun), Hrun. reflexivity.
Qed.

(** ** Results *)

Lemma caught_true (outcome : Result bool) :
  caught outcome = Ok true <-> outcome = Ok true.
Proof.
  destruct outcome as [valid | error]; cbn; [tauto |].
  destruct (instanceof_CallExecutionError error);
    split; intros Heq; discriminate Heq.
Qed.

Lemma caught_thrown (outcome : Result bool) (error : JsError) :
  caught outcome = Thrown error ->
  outcome = Thrown error /\ instanceof_CallExecutionError error = false.
Proof.
  destruct outcome as [valid | thrown]; cbn; [discriminate |].
  destruct (instanceof_CallExecutionError thrown) eqn:Hclass;
    [discriminate |].
  intros [= <-]. split; [reflexivity | exact Hclass].
Qed.

(** X6.  [verifyHash] returns [true] exactly when the signature normalised,
    the deployment data encoded, the call returned, and [isBytesEqual] found
    the returned data (['0x0'] when absent) equal to ['0x1'].  No error, of
    any class and from any step, leads to [true]. *)
Theorem true_iff_call_returned_sentinel
    {ChainState : Type} {imports : Imports}
    (client : Client ChainState) (parameters : VerifyHashParameters)
    (w : World ChainState) :
  snd (verifyHash client parameters w) = Ok true <->
  exists signatureHex_ deployData returned,
    signatureHex (signature parameters) = Ok signatureHex_ /\
    deployDataOf parameters signatureHex_ = Ok deployData /\
    snd (call client (request parameters deployData) (node w)) = Ok returned /\
    isBytesEqual (nullish (data returned) "0x0") "0x1" = Ok true.
Proof.
  split.
  - intros Htrue.
    destruct (signatureHex (signature parameters)) as [sh | e] eqn:Hsig;
      [| rewrite (verifyHash_normalisation_throws _ _ _ _ Hsig) in Htrue;
         discriminate].
    destruct (deployDataOf parameters sh) as [d | e] eqn:Henc.
    + destruct (call client (request parameters d) (node w))
        as [node' outcome] eqn:Hcall.
      rewrite (verifyHash_calls _ _ _ _ _ _ _ Hsig Henc Hcall) in Htrue.
      cbn [snd] in Htrue. apply (proj1 (caught_true _)) in Htrue.
      destruct outcome as [returned | e]; [| discriminate Htrue].
      exists sh, d, returned. rewrite Hcall. auto.
    + rewrite (verifyHash_encoding_throws _ _ _ _ _ Hsig Henc) in Htrue.
      cbn [snd] in Htrue. apply (proj1 (caught_true _)) in Htrue. discriminate Htrue.
  - intros (sh & d & returned & Hsig & Henc & Hcall & Hequal).
    destruct (call client (request parameters d) (node w))
      as [node' outcome] eqn:Hrun.
    cbn [snd] in Hcall. subst outcome.
    rewrite (verifyHash_calls _ _ _ _ _ _ _ Hsig Henc Hrun). cbn [snd].
    apply (proj2 (caught_true _)). exact Hequal.
Qed.



(** X8.  When encoding the deployment data throws, which happens inside the
    [try] block, no request is sent and the world is as it was; the error is
    thrown on, unless it is a [CallExecutionError], which the [catch] clause
    reads as [false] here as well. *)
Theorem encoding_error_is_caught {ChainState : Type} {imports : Imports}
    (client : Client ChainState) (parameters : VerifyHashParameters)
    (w : World ChainState) (signatureHex_ : Hex) (error : JsError) :
  signatureHex (signature parameters) = Ok signatureHex_ ->
  deployDataOf parameters signatureHex_ = Thrown error ->
  verifyHash client parameters w =
    (w, if instanceof_CallExecutionError error then Ok false
        else Thrown error) /\
  requestsOfRun client parameters w = [].
Proof.
  intros Hsig Henc.
  pose proof (verifyHash_encoding_throws client _ w _ _ Hsig Henc) as Hrun.
  split; [exact Hrun | eapply requestsOfRun_none; exact Hrun].
Qed.

Lemma encoding_error_is_caught_witness :
  verifyHash (imports := viem) (answeringClient (Some "0x01"%string))
    malformedAddressParameters freshWorld
  = (freshWorld, Thrown (OtherError "InvalidAddressError" "0x123")) /\
  requestsOfRun (imports := viem) (answeringClient (Some "0x01"%string))
    malformedAddressParameters freshWorld = [].
Proof.
  apply (encoding_error_is_caught (imports := viem)
           (answeringClient (Some "0x01"%string))
           malformedAddressParameters freshWorld exampleSignature
           (OtherError "InvalidAddressError" "0x123"));
    vm_compute; reflexivity.
Defined.

(** X9.  [verifyHash] sees the signature through its normalisation only: two
    runs from the same world whose parameters agree on [address], [hash] and
    the call request, and whose signatures normalise alike, end in the same
    world and the same result. *)
Theorem same_normalisation_same_run {ChainState : Type} {imports : Imports}
    (client : Client ChainState)
    (parameters1 parameters2 : VerifyHashParameters)
    (w : World ChainState) :
  address parameters1 = address parameters2 ->
  hash parameters1 = hash parameters2 ->
  callRequest parameters1 = callRequest parameters2 ->
  signatureHex (signature parameters1) = signatureHex (signature parameters2) ->
  verifyHash client parameters1 w = verifyHash client parameters2 w.
Proof.
  intros Haddress Hhash Hrest Hsignature.
  destruct (signatureHex (signature parameters1)) as [sh | e] eqn:Hsig1;
    symmetry in Hsignature.
  - rewrite (verifyHash_normalised client parameters1 w sh Hsig1).
    rewrite (verifyHash_normalised client parameters2 w sh Hsignature).
    unfold tryValidate. rewrite Haddress, Hhash, Hrest. reflexivity.
  - rewrite (verifyHash_normalisation_throws client parameters1 w e Hsig1).
    rewrite (verifyHash_normalisation_throws client parameters2 w e
               Hsignature).
    reflexivity.
Qed.

Lemma same_normalisation_same_run_witness :
  verifyHash (imports := viem) (answeringClient (Some "0x01"%string))
    (exampleParameters (HexValue exampleSignature)) freshWorld =
  verifyHash (imports := viem) (answeringClient (Some "0x01"%string))
    (exampleParameters (ByteArrayValue (signatureBytes 171 205 0)))
    freshWorld.
Proof.
  apply (same_normalisation_same_run (imports := viem)
           (answeringClient (Some "0x01"%string))
           (exampleParameters (HexValue exampleSignature))
           (exampleParameters (ByteArrayValue (signatureBytes 171 205 0)))
           freshWorld);
    vm_compute; reflexivity.
Defined.

(** X10.  A call that returns no data and a call that returns ['0x0'] are
    read alike: two runs on the same parameters, one against each, end in the
    same result. *)
Theorem absent_data_is_0x0 {ChainState : Type} {imports : Imports}
    (client1 client2 : Client ChainState)
    (parameters : VerifyHashParameters) (w1 w2 : World ChainState) :
  (forall req, In req (requestsOfRun client1 parameters w1) ->
     snd (call client1 req (node w1)) = Ok {| data := None |} /\
     snd (call client2 req (node w2)) = Ok {| data := Some "0x0"%string |}) ->
  snd (verifyHash client1 parameters w1) =
  snd (verifyHash client2 parameters w2).
Proof.
  intros Hcalls.
  destruct (signatureHex (signature parameters)) as [sh | e] eqn:Hsig.
  - destruct (deployDataOf parameters sh) as [d | e] eqn:Henc.
    + rewrite (requestsOfRun_one client1 parameters w1 sh d Hsig Henc)
        in Hcalls.
      destruct (Hcalls _ (or_introl eq_refl)) as [Hcall1 Hcall2].
      destruct (call client1 (request parameters d) (node w1))
        as [n1 o1] eqn:Hrun1.
      destruct (call client2 (request parameters d) (node w2))
        as [n2 o2] eqn:Hrun2.
      cbn [snd] in Hcall1, Hcall2. subst o1 o2.
      rewrite (verifyHash_calls _ _ _ _ _ _ _ Hsig Henc Hrun1).
      rewrite (verifyHash_calls _ _ _ _ _ _ _ Hsig Henc Hrun2).
      reflexivity.
    + rewrite !(verifyHash_encoding_throws _ _ _ _ _ Hsig Henc). reflexivity.
  - rewrite !(verifyHash_normalisation_throws _ _ _ _ Hsig). reflexivity.
Qed.

Lemma absent_data_is_0x0_witness :
  snd (verifyHash (imports := viem) (answeringClient None)
         (exampleParameters (HexValue exampleSignature)) freshWorld) =
  snd (verifyHash (imports := viem) (answeringClient (Some "0x0"%string))
         (exampleParameters (HexValue exampleSignature)) freshWorld).
Proof.
  apply (absent_data_is_0x0 (imports := viem) (answeringClient None)
           (answeringClient (Some "0x0"%string))
           (exampleParameters (HexValue exampleSignature))
           freshWorld freshWorld).
  intros req _. split; reflexivity.
Defined.

(** X11.  [verifyHash] throws no error of its own: an error it throws was
    thrown, the very same, by normalising the signature, by encoding the
    deployment data, by the call, or by comparing the returned data. *)
Theorem thrown_error_has_a_source {ChainState : Type} {imports : Imports}
    (client : Client ChainState) (parameters : VerifyHashParameters)
    (w : World ChainState) (error : JsError) :
  snd (verifyHash client parameters w) = Thrown error ->
  signatureHex (signature parameters) = Thrown error \/
  exists signatureHex_,
    signatureHex (signature parameters) = Ok signatureHex_ /\
    (deployDataOf parameters signatureHex_ = Thrown error \/
     exists deployData,
       deployDataOf parameters signatureHex_ = Ok deployData /\
       (snd (call client (request parameters deployData) (node w))
        = Thrown error \/
        exists returned,
          snd (call client (request parameters deployData) (node w))
          = Ok returned /\
          isBytesEqual (nullish (data returned) "0x0") "0x1"
          = Thrown error)).
Proof.
  intros Hthrown.
  destruct (signatureHex (signature parameters)) as [sh | e] eqn:Hsig.
  - right. exists sh. split; [reflexivity |].
    destruct (deployDataOf parameters sh) as [d | e] eqn:Henc.
    + right. exists d. split; [reflexivity |].
      destruct (call client (request parameters d) (node w))
        as [node' outcome] eqn:Hcall.
      rewrite (verifyHash_calls _ _ _ _ _ _ _ Hsig Henc Hcall) in Hthrown.
      cbn [snd] in Hthrown |- *. apply caught_thrown in Hthrown.
      destruct Hthrown as [Hsource _].
      destruct outcome as [returned | e]; [right; eauto | left].
      injection Hsource as ->. reflexivity.
    + left.
      rewrite (verifyHash_encoding_throws _ _ _ _ _ Hsig Henc) in Hthrown.
      cbn [snd] in Hthrown. apply caught_thrown in Hthrown.
      destruct Hthrown as [Hsource _]. injection Hsource as ->. reflexivity.
  - left.
    rewrite (verifyHash_normalisation_throws _ _ _ _ Hsig) in Hthrown.
    cbn [snd] in Hthrown. injection Hthrown as ->. reflexivity.
Qed.

Lemma thrown_error_has_a_source_witness :
  let error := OtherError "Error" "r must be 0 < r < CURVE.n" in
  let parameters := exampleParameters (SignatureObject outOfRangeSignature) in
  let client := answeringClient (Some "0x01"%string) in
  signatureHex (imports := viem) (signature parameters) = Thrown error \/
  exists signatureHex_,
    signatureHex (imports := viem) (signature parameters)
    = Ok signatureHex_ /\
    (deployDataOf (imports := viem) parameters signatureHex_ = Thrown error \/
     exists deployData,
       deployDataOf (imports := viem) parameters signatureHex_
       = Ok deployData /\
       (snd (call client (request parameters deployData) (node freshWorld))
        = Thrown error \/
        exists returned,
          snd (call client (request parameters deployData) (node freshWorld))
          = Ok returned /\
          isBytesEqual (Imports := viem) (nullish (data returned) "0x0") "0x1"
          = Thrown error)).
Proof.
  intros error parameters client.
  apply (thrown_error_has_a_source (imports := viem) client parameters
           freshWorld error).
  vm_compute. reflexivity.
Defined.

(** X12.  Two runs on the same parameters, one after the other, send the same
    requests again: after the second run the log holds the requests of the
    first run twice over, after whatever it held at the start. *)
Theorem two_runs_send_twice {ChainState : Type} {imports : Imports}
    (client : Client ChainState) (parameters : VerifyHashParameters)
    (w : World ChainState) :
  outbound (fst (verifyHash client parameters
                   (fst (verifyHash client parameters w)))) =
  outbound w ++ requestsOfRun client parameters w
             ++ requestsOfRun client parameters w.
Proof.
  rewrite outbound_after_run, outbound_after_run, <- app_assoc.
  rewrite (requestsOfRun_built client parameters
             (fst (verifyHash client parameters w))).
  rewrite (requestsOfRun_built client parameters w).
  reflexivity.
Qed.
